(** * TestOrganizer: the module structure checker of Builder Core v2

    A shallow embedding of [testorganizer.py] and the proofs of its
    specification.  The three functions of the source,
    [check_module_structure], [list_all_modules] and [run], are modelled as
    written:

    - the dictionaries of the source ([params], [results], the responses)
      are finite maps with string keys, built and read with the same
      insertions and look-ups as the code;
    - the filesystem is reached only through [os.path.exists],
      [os.path.isdir] and [os.listdir]; it is an explicit argument [fs]
      giving the answers of these three calls, and a concrete directory
      tree ([tree_fs]) is provided to run the code on examples;
    - what can raise in Python ([os.listdir], [os.path.join] on a value that
      is not a string, a missing key) raises in the model, in a small error
      monad. *)

From Stdlib Require Import ZArith String Ascii List DecimalString.
From stdpp Require Import base option gmap strings list fin_maps.
Import ListNotations.
Local Open Scope string_scope.

(** ** Python values and exceptions *)

(** The values found in the dictionaries of the program: [None], booleans,
    integers and strings.  [params] is a [Dict[str, Any]]: a caller may put
    any of these under ["operation"] and ["module_name"]; floats, containers
    and other objects are not modelled. *)
Inductive pyval : Type :=
  | VNone
  | VBool (b : bool)
  | VInt (z : Z)
  | VStr (s : string).

#[global] Instance pyval_eq_dec : EqDecision pyval.
Proof. solve_decision. Defined.

Inductive exn : Type :=
  | TypeError
  | KeyError (key : string)
  | OSError.

(** The outcome of a Python call: a value or a raised exception. *)
Inductive res (A : Type) : Type :=
  | Ok (a : A)
  | Raise (e : exn).
Arguments Ok {A} a.
Arguments Raise {A} e.

#[global] Instance res_bind : MBind res := λ A B k c,
  match c with
  | Ok a => k a
  | Raise e => Raise e
  end.

(** [bool(v)]: the truth value Python gives to [v]. *)
Definition truthy (v : pyval) : bool :=
  match v with
  | VNone => false
  | VBool b => b
  | VInt z => negb (Z.eqb z 0)
  | VStr s => negb (bool_decide (s = ""))
  end.

(** [str(v)], which is what an f-string field [{v}] inserts. *)
Definition py_str (v : pyval) : string :=
  match v with
  | VNone => "None"
  | VBool true => "True"
  | VBool false => "False"
  | VInt z => NilZero.string_of_int (Z.to_int z)
  | VStr s => s
  end.

(** [v == s] for a string literal [s]: only an equal string is equal. *)
Definition py_eq_str (v : pyval) (s : string) : bool :=
  match v with
  | VStr t => bool_decide (t = s)
  | _ => false
  end.

(** [d[key]]: [KeyError] when the key is absent. *)
Definition getitem {V : Type} (d : gmap string V) (key : string) : res V :=
  match d !! key with
  | Some v => Ok v
  | None => Raise (KeyError key)
  end.

(** A dictionary display [{k1: v1, ..., kn: vn}]: the items are inserted
    from left to right into an empty dictionary. *)
Definition dict {V : Type} (items : list (string * V)) : gmap string V :=
  foldl (λ d kv, <[kv.1 := kv.2]> d) ∅ items.

(** The values of a response of [run]: a scalar, the dictionary of one check
    or the list of dictionaries of a listing. *)
Inductive rval : Type :=
  | RVal (v : pyval)
  | RDict (d : gmap string pyval)
  | RList (l : list (gmap string pyval)).

(** ** Strings and paths *)

(** [s.startswith(p)]. *)
Definition startswith (s p : string) : bool := String.prefix p s.

(** [s.endswith("/")]. *)
Fixpoint ends_with_sep (s : string) : bool :=
  match s with
  | EmptyString => false
  | String c EmptyString => bool_decide (c = "/"%char)
  | String _ rest => ends_with_sep rest
  end.

(** [os.path.join(a, b)] of [posixpath]: an absolute [b] replaces [a];
    otherwise [b] is appended, after a separator unless [a] is empty or
    already ends with one. *)
Definition path_join (a b : string) : string :=
  if startswith b "/" then b
  else if bool_decide (a = "") || ends_with_sep a then a ++ b
  else a ++ "/" ++ b.

(** ** The filesystem, as the program sees it *)

Record filesystem : Type := {
  path_exists : string → bool;          (* os.path.exists *)
  path_isdir : string → bool;           (* os.path.isdir *)
  listdir : string → res (list string)  (* os.listdir, may raise OSError *)
}.

(** ** The program *)

Section TestOrganizer.

(** [str.lower]: Python lowers by the Unicode tables, which are not part of
    the program; the development holds for any lowering function. *)
Variable str_lower : string → string.

Variable fs : filesystem.

Definition check_module_structure (module_name : string)
  : res (gmap string pyval) :=
  let results : gmap string pyval :=
    dict [("module", VStr module_name);
          ("exists", VBool false);
          ("has_tool_py", VBool false);
          ("has_tool_yaml", VBool false);
          ("has_legacy_module", VBool false)] in
  (* Check for module directory *)
  let module_dir := path_join "modules" module_name in
  let results :=
    if path_exists fs module_dir && path_isdir fs module_dir then
      let results := <["exists" := VBool true]> results in
      let tool_path := path_join module_dir "tool.py" in
      let results :=
        <["has_tool_py" := VBool (path_exists fs tool_path)]> results in
      let yaml_path := path_join module_dir "tool.yaml" in
      <["has_tool_yaml" := VBool (path_exists fs yaml_path)]> results
    else results in
  (* Check for legacy module file *)
  let legacy_path := "modules/" ++ str_lower module_name ++ ".py" in
  let results :=
    <["has_legacy_module" := VBool (path_exists fs legacy_path)]> results in
  (* Determine if structure is complete: [a and b and c] gives the first
     operand that is false, else the last one *)
  is_complete ←
    (e ← getitem results "exists";
     if truthy e then
       p ← getitem results "has_tool_py";
       if truthy p then getitem results "has_tool_yaml" else Ok p
     else Ok e);
  Ok (<["is_complete" := is_complete]> results).

(** The body of the loop [for item in os.listdir("modules")], with the list
    [modules] built so far. *)
Fixpoint for_items (items : list string) (modules : list (gmap string pyval))
  : res (list (gmap string pyval)) :=
  match items with
  | [] => Ok modules
  | item :: rest =>
      (* Check if it's a directory *)
      let item_path := path_join "modules" item in
      if path_isdir fs item_path && negb (startswith item ".") then
        (* Check structure *)
        r ← check_module_structure item;
        for_items rest (modules ++ [r])%list
      else for_items rest modules
  end.

Definition list_all_modules : res (list (gmap string pyval)) :=
  let modules := [] in
  if negb (path_exists fs "modules") then Ok modules
  else
    (* Get all directories in modules folder *)
    items ← listdir fs "modules";
    for_items items modules.

(** [sum(1 for m in modules if m["is_complete"])], with the running total. *)
Fixpoint sum_complete (modules : list (gmap string pyval)) (total : Z)
  : res Z :=
  match modules with
  | [] => Ok total
  | m :: rest =>
      c ← getitem m "is_complete";
      sum_complete rest (if truthy c then total + 1 else total)%Z
  end.

Definition run (params : gmap string pyval) : res (gmap string rval) :=
  let operation := default (VStr "list") (params !! "operation") in
  if py_eq_str operation "check" then
    let module_name := default VNone (params !! "module_name") in
    if negb (truthy module_name) then
      Ok (dict
        [("status", RVal (VStr "error"));
         ("message",
          RVal (VStr "Missing module_name parameter for check operation"));
         ("module", RVal (VStr "TestOrganizer"))])
    else
      match module_name with
      | VStr name =>
          result ← check_module_structure name;
          c ← getitem result "is_complete";
          let status := if truthy c then "complete" else "incomplete" in
          Ok (dict
            [("status", RVal (VStr status));
             ("message",
              RVal (VStr ("Module structure check completed for " ++ name)));
             ("module", RVal (VStr "TestOrganizer"));
             ("result", RDict result)])
      | _ => Raise TypeError  (* os.path.join refuses what is not a path *)
      end
  else if py_eq_str operation "list" then
    modules ← list_all_modules;
    complete_count ← sum_complete modules 0%Z;
    let len_modules := Z.of_nat (length modules) in
    let incomplete_count := (len_modules - complete_count)%Z in
    Ok (dict
      [("status", RVal (VStr "success"));
       ("message",
        RVal (VStr ("Found " ++ py_str (VInt len_modules) ++ " modules ("
                    ++ py_str (VInt complete_count) ++ " complete, "
                    ++ py_str (VInt incomplete_count) ++ " incomplete)")));
       ("module", RVal (VStr "TestOrganizer"));
       ("modules", RList modules)])
  else
    Ok (dict
      [("status", RVal (VStr "error"));
       ("message", RVal (VStr ("Unknown operation: " ++ py_str operation)));
       ("module", RVal (VStr "TestOrganizer"))]).

(** *** The result of a check, in closed form *)

(** The module directory was found: the test of the [if] of
    [check_module_structure]. *)
Definition dir_found (module_name : string) : bool :=
  let module_dir := path_join "modules" module_name in
  path_exists fs module_dir && path_isdir fs module_dir.

Definition legacy_path (module_name : string) : string :=
  "modules/" ++ str_lower module_name ++ ".py".

(** The dictionary that [check_module_structure] returns, flag by flag. *)
Definition structure_of (module_name : string) : gmap string pyval :=
  let module_dir := path_join "modules" module_name in
  let found := dir_found module_name in
  let tool_py := found && path_exists fs (path_join module_dir "tool.py") in
  let tool_yaml := found && path_exists fs (path_join module_dir "tool.yaml") in
  dict [("module", VStr module_name);
        ("exists", VBool found);
        ("has_tool_py", VBool tool_py);
        ("has_tool_yaml", VBool tool_yaml);
        ("has_legacy_module", VBool (path_exists fs (legacy_path module_name)));
        ("is_complete", VBool (found && tool_py && tool_yaml))].

(** The test of the loop of [list_all_modules]: the entry is a directory
    and is not hidden. *)
Definition listed (item : string) : bool :=
  path_isdir fs (path_join "modules" item) && negb (startswith item ".").

End TestOrganizer.

(** ** The responses of [run]

    The three dictionaries that [run] builds, by name. *)
Definition error_response (message : string) : gmap string rval :=
  dict [("status", RVal (VStr "error"));
        ("message", RVal (VStr message));
        ("module", RVal (VStr "TestOrganizer"))].

Definition check_response (name : string) (result : gmap string pyval)
    (complete : bool) : gmap string rval :=
  dict [("status", RVal (VStr (if complete then "complete" else "incomplete")));
        ("message", RVal (VStr ("Module structure check completed for " ++ name)));
        ("module", RVal (VStr "TestOrganizer"));
        ("result", RDict result)].

Definition list_response (message : string)
    (modules : list (gmap string pyval)) : gmap string rval :=
  dict [("status", RVal (VStr "success"));
        ("message", RVal (VStr message));
        ("module", RVal (VStr "TestOrganizer"));
        ("modules", RList modules)].

(** ** A concrete filesystem: a directory tree

    The working directory of the program is the root of the tree.  A
    directory lists its entries in the order [os.listdir] yields them. *)

#[warnings="-register-all"]
Inductive node : Type :=
  | File
  | Dir (entries : list (string * node)).

(** The components of a path, separated by ["/"]. *)
Fixpoint components (path : string) : list string :=
  match path with
  | EmptyString => [""]
  | String c rest =>
      if bool_decide (c = "/"%char) then "" :: components rest
      else
        match components rest with
        | [] => [String c ""]
        | h :: t => String c h :: t
        end
  end.

Fixpoint find_entry (name : string) (entries : list (string * node))
  : option node :=
  match entries with
  | [] => None
  | (n, x) :: rest => if bool_decide (n = name) then Some x else find_entry name rest
  end.

(** Path resolution from [cur], whose ancestors are [parents] (nearest
    first): an empty component and ["."] stay in place, [".."] goes up (and
    stays at the root), a name goes down; only a directory can be walked
    through. *)
Fixpoint walk (parents : list node) (cur : node) (comps : list string)
  : option node :=
  match comps with
  | [] => Some cur
  | c :: rest =>
      match cur with
      | File => None
      | Dir entries =>
          if bool_decide (c = "") || bool_decide (c = ".") then
            walk parents cur rest
          else if bool_decide (c = "..") then
            match parents with
            | [] => walk [] cur rest
            | up :: ancestors => walk ancestors up rest
            end
          else
            match find_entry c entries with
            | Some child => walk (cur :: parents) child rest
            | None => None
            end
      end
  end.

Definition resolve (root : node) (path : string) : option node :=
  if bool_decide (path = "") then None else walk [] root (components path).

Definition tree_fs (root : node) : filesystem :=
  {| path_exists := λ path, bool_decide (is_Some (resolve root path));
     path_isdir := λ path,
       match resolve root path with
       | Some (Dir _) => true
       | _ => false
       end;
     listdir := λ path,
       match resolve root path with
       | Some (Dir entries) => Ok (entries.*1)
       | _ => Raise OSError
       end |}.

(** [str.lower] on ASCII letters. *)
Definition lower_char (c : ascii) : ascii :=
  let n := nat_of_ascii c in
  if (65 <=? n)%nat && (n <=? 90)%nat then ascii_of_nat (n + 32) else c.

Fixpoint ascii_lower (s : string) : string :=
  match s with
  | EmptyString => EmptyString
  | String c rest => String (lower_char c) (ascii_lower rest)
  end.

(** ** Sample filesystems *)

(** A [modules] directory with a complete module [foo], a module [bar]
    that has only [tool.py], a hidden directory with both files, a legacy
    file [baz.py] without a [baz] directory, and a plain file. *)
Definition sample_tree : node :=
  Dir [("modules",
        Dir [("foo", Dir [("tool.py", File); ("tool.yaml", File)]);
             (".cache", Dir [("tool.py", File); ("tool.yaml", File)]);
             ("bar", Dir [("tool.py", File)]);
             ("baz.py", File);
             ("README", File)])].

Definition sample_fs : filesystem := tree_fs sample_tree.

(** A working directory without [modules]. *)
Definition bare_fs : filesystem := tree_fs (Dir [("README", File)]).

(** A [modules] directory that holds no module: a hidden directory and a
    plain file. *)
Definition barren_fs : filesystem :=
  tree_fs (Dir [("modules", Dir [(".git", Dir []); ("notes.txt", File)])]).

(** ** Counting the modules of a listing *)

(** The number of dictionaries whose [is_complete] is [True]. *)
Definition complete_number (modules : list (gmap string pyval)) : Z :=
  Z.of_nat
    (length
       (List.filter
          (λ m, bool_decide (m !! "is_complete" = Some (VBool true)))
          modules)).

(** The message of a listing, from the three numbers it shows. *)
Definition found_message (total complete incomplete : Z) : string :=
  "Found " ++ py_str (VInt total) ++ " modules ("
  ++ py_str (VInt complete) ++ " complete, "
  ++ py_str (VInt incomplete) ++ " incomplete)".

(** ** The directory tree is a filesystem

    What [tree_fs] answers is coherent: a directory exists, and the paths
    that can be listed are the directories. *)

Lemma tree_isdir_exists (root : node) (path : string) :
  path_isdir (tree_fs root) path = true →
  path_exists (tree_fs root) path = true.
Proof.
  simpl. destruct (resolve root path) as [[|entries]|]; try discriminate.
  intros _. apply bool_decide_eq_true. by eexists.
Qed.

Lemma tree_listdir_isdir (root : node) (path : string) :
  path_isdir (tree_fs root) path = true
  ↔ ∃ names, listdir (tree_fs root) path = Ok names.
Proof.
  simpl. destruct (resolve root path) as [[|entries]|]; split;
    try discriminate; try (intros [names H]; discriminate); eauto.
Qed.

(** ** Properties of [check_module_structure] *)

Section CheckModule.

Variable lower : string → string.
Variable fs : filesystem.

(** No module name makes the check raise: it returns the dictionary
    [structure_of]. *)
Lemma check_module_structure_ok (m : string) :
  check_module_structure lower fs m = Ok (structure_of lower fs m).
Proof.
  unfold check_module_structure, structure_of, dir_found, legacy_path.
  generalize (path_join "modules" m); intros d.
  destruct (path_exists fs d), (path_isdir fs d),
    (path_exists fs (path_join d "tool.py")),
    (path_exists fs (path_join d "tool.yaml")),
    (path_exists fs _); reflexivity.
Qed.

Lemma structure_of_module (m : string) :
  structure_of lower fs m !! "module" = Some (VStr m).
Proof. reflexivity. Qed.

Lemma structure_of_exists (m : string) :
  structure_of lower fs m !! "exists" = Some (VBool (dir_found fs m)).
Proof. reflexivity. Qed.

Lemma structure_of_legacy (m : string) :
  structure_of lower fs m !! "has_legacy_module"
  = Some (VBool (path_exists fs (legacy_path lower m))).
Proof. reflexivity. Qed.

Lemma structure_of_flags (m : string) :
  ∃ e p y : bool,
    structure_of lower fs m !! "exists" = Some (VBool e) ∧
    structure_of lower fs m !! "has_tool_py" = Some (VBool p) ∧
    structure_of lower fs m !! "has_tool_yaml" = Some (VBool y) ∧
    structure_of lower fs m !! "is_complete" = Some (VBool (e && p && y)).
Proof. eexists _, _, _. repeat split; reflexivity. Qed.

Lemma structure_of_is_complete (m : string) :
  dir_found fs m = false →
  structure_of lower fs m !! "is_complete" = Some (VBool false).
Proof.
  intros H. unfold structure_of. rewrite H. reflexivity.
Qed.

(** C1. For every module name, [check_module_structure] returns a result
    whose [is_complete] entry is the conjunction of its [exists],
    [has_tool_py] and [has_tool_yaml] entries: it is computed from the three
    flags and from nothing else. *)
Theorem is_complete_is_conjunction (m : string) :
  ∃ (r : gmap string pyval) (e p y : bool),
    check_module_structure lower fs m = Ok r ∧
    r !! "exists" = Some (VBool e) ∧
    r !! "has_tool_py" = Some (VBool p) ∧
    r !! "has_tool_yaml" = Some (VBool y) ∧
    r !! "is_complete" = Some (VBool (e && p && y)).
Proof.
  destruct (structure_of_flags m) as (e & p & y & He & Hp & Hy & Hc).
  exists (structure_of lower fs m), e, p, y.
  split; [apply check_module_structure_ok | auto].
Qed.

(** C5. For every module name [m], [has_legacy_module] is true exactly when
    the path [modules/<m lowercased>.py] exists, whatever the module
    directory is; in particular, when the module directory is not found and
    the legacy path exists, [has_legacy_module] is true while [exists] and
    [is_complete] are false. *)
Theorem legacy_checked_independently (m : string) :
  ∃ r : gmap string pyval,
    check_module_structure lower fs m = Ok r ∧
    r !! "has_legacy_module"
      = Some (VBool (path_exists fs ("modules/" ++ lower m ++ ".py"))) ∧
    (path_exists fs (path_join "modules" m)
       && path_isdir fs (path_join "modules" m) = false →
     path_exists fs ("modules/" ++ lower m ++ ".py") = true →
     r !! "has_legacy_module" = Some (VBool true) ∧
     r !! "exists" = Some (VBool false) ∧
     r !! "is_complete" = Some (VBool false)).
Proof.
  exists (structure_of lower fs m).
  split; [apply check_module_structure_ok |].
  split; [apply structure_of_legacy |].
  intros Hdir Hleg. fold (dir_found fs m) in Hdir.
  rewrite structure_of_legacy, structure_of_exists, structure_of_is_complete
    by exact Hdir.
  unfold legacy_path. rewrite Hleg, Hdir. auto.
Qed.

End CheckModule.

(** ** Properties of [list_all_modules] *)

Section ListModules.

Variable lower : string → string.
Variable fs : filesystem.

Lemma for_items_filter (items : list string)
    (modules : list (gmap string pyval)) :
  for_items lower fs items modules
  = Ok (modules ++ map (structure_of lower fs) (List.filter (listed fs) items))%list.
Proof.
  revert modules. induction items as [|item rest IH]; intros modules; simpl.
  - by rewrite app_nil_r.
  - fold (listed fs item). destruct (listed fs item); simpl; [|apply IH].
    rewrite check_module_structure_ok. simpl.
    rewrite IH, <- app_assoc. reflexivity.
Qed.

Lemma list_all_modules_missing_root :
  path_exists fs "modules" = false → list_all_modules lower fs = Ok [].
Proof. intros H. unfold list_all_modules. by rewrite H. Qed.

Lemma list_all_modules_listing (entries : list string) :
  path_exists fs "modules" = true →
  listdir fs "modules" = Ok entries →
  list_all_modules lower fs
  = Ok (map (structure_of lower fs) (List.filter (listed fs) entries)).
Proof.
  intros Hroot Hls. unfold list_all_modules. rewrite Hroot, Hls. simpl.
  apply for_items_filter.
Qed.

(** A listing is made of results of checks, so counting the complete ones
    never raises. *)
Lemma sum_complete_structures (items : list string) (total : Z) :
  ∃ n : Z, sum_complete (map (structure_of lower fs) items) total = Ok n.
Proof.
  revert total. induction items as [|item rest IH]; intros total; simpl.
  - by exists total.
  - destruct (structure_of_flags lower fs item) as (e & p & y & _ & _ & _ & Hc).
    unfold getitem. rewrite Hc. simpl. apply IH.
Qed.

(** C4. When [modules] exists and is listed, [list_all_modules] returns, in
    the order of the listing, the result of [check_module_structure] on the
    name of each entry that is a directory and does not start with a dot,
    and nothing else: no result bears the name of a hidden entry or of an
    entry that is not a directory. *)
Theorem hidden_and_files_excluded (entries : list string) :
  path_exists fs "modules" = true →
  listdir fs "modules" = Ok entries →
  ∃ rs : list (gmap string pyval),
    list_all_modules lower fs = Ok rs ∧
    Forall2 (λ item r, check_module_structure lower fs item = Ok r)
      (List.filter
         (λ item, path_isdir fs (path_join "modules" item)
                  && negb (startswith item "."))
         entries)
      rs ∧
    ∀ item : string,
      startswith item "." = true
      ∨ path_isdir fs (path_join "modules" item) = false →
      ∀ r, r ∈ rs → r !! "module" ≠ Some (VStr item).
Proof.
  intros Hroot Hls. eexists. split; [by apply list_all_modules_listing |].
  split.
  - apply Forall2_fmap_r, Forall_Forall2_diag, Forall_forall.
    intros item _. apply check_module_structure_ok.
  - intros item Hout r Hr Hname.
    apply list_elem_of_fmap in Hr as (item' & -> & Hin).
    rewrite structure_of_module in Hname. injection Hname as ->.
    apply list_elem_of_In, filter_In in Hin as [_ Hkeep].
    unfold listed in Hkeep. apply andb_true_iff in Hkeep as [Hd Hh].
    destruct Hout as [Hout | Hout]; [|congruence].
    rewrite Hout in Hh. discriminate.
Qed.

End ListModules.

(** ** Properties of [run] *)

Section Run.

Variable lower : string → string.
Variable fs : filesystem.

Lemma run_check_falsy (params : gmap string pyval) :
  params !! "operation" = Some (VStr "check") →
  truthy (default VNone (params !! "module_name")) = false →
  run lower fs params
  = Ok (error_response "Missing module_name parameter for check operation").
Proof. intros Hop Hname. unfold run. rewrite Hop. simpl. by rewrite Hname. Qed.

Lemma run_check_name (params : gmap string pyval) (name : string) :
  params !! "operation" = Some (VStr "check") →
  params !! "module_name" = Some (VStr name) →
  name ≠ "" →
  ∃ complete : bool,
    structure_of lower fs name !! "is_complete" = Some (VBool complete) ∧
    run lower fs params
    = Ok (check_response name (structure_of lower fs name) complete).
Proof.
  intros Hop Hname Hne. unfold run. rewrite Hop, Hname. simpl.
  rewrite bool_decide_false by exact Hne. simpl.
  rewrite check_module_structure_ok. simpl.
  destruct (structure_of_flags lower fs name) as (e & p & y & _ & _ & _ & Hc).
  exists (e && p && y). split; [exact Hc |].
  unfold getitem. rewrite Hc. reflexivity.
Qed.

Lemma run_list (params : gmap string pyval) :
  default (VStr "list") (params !! "operation") = VStr "list" →
  run lower fs params
  = modules ← list_all_modules lower fs;
    complete_count ← sum_complete modules 0%Z;
    Ok (list_response
          ("Found " ++ py_str (VInt (Z.of_nat (length modules)))
           ++ " modules (" ++ py_str (VInt complete_count) ++ " complete, "
           ++ py_str (VInt (Z.of_nat (length modules) - complete_count))
           ++ " incomplete)")
          modules).
Proof. intros Hop. unfold run. rewrite Hop. reflexivity. Qed.


(** An absent [operation] stands for ["list"]. *)
Lemma run_absent_operation (params : gmap string pyval) :
  params !! "operation" = None →
  run lower fs params = run lower fs (<["operation" := VStr "list"]> params).
Proof.
  intros Hop. rewrite !run_list; [reflexivity | | by rewrite Hop].
  by rewrite lookup_insert_eq.
Qed.

(** Listing returns a response as soon as [os.listdir] does. *)
Lemma run_list_returns (params : gmap string pyval) (entries : list string) :
  default (VStr "list") (params !! "operation") = VStr "list" →
  path_exists fs "modules" = true →
  listdir fs "modules" = Ok entries →
  ∃ message : string,
    run lower fs params
    = Ok (list_response message
            (map (structure_of lower fs) (List.filter (listed fs) entries))).
Proof.
  intros Hop Hroot Hls. rewrite run_list by exact Hop.
  rewrite (list_all_modules_listing lower fs entries Hroot Hls). simpl.
  destruct (sum_complete_structures lower fs
              (List.filter (listed fs) entries) 0) as [n Hn].
  rewrite Hn. simpl. by eexists.
Qed.


(** C3. When the [modules] root does not exist, [list_all_modules] returns
    the empty list, none of which is complete, and [run] on
    [{"operation": "list"}] returns the success response with no module and
    the message ["Found 0 modules (0 complete, 0 incomplete)"]. *)
Theorem missing_root_empty_report :
  path_exists fs "modules" = false →
  list_all_modules lower fs = Ok [] ∧
  sum_complete [] 0%Z = Ok 0%Z ∧
  ∃ resp : gmap string rval,
    run lower fs (dict [("operation", VStr "list")]) = Ok resp ∧
    resp = list_response "Found 0 modules (0 complete, 0 incomplete)" [] ∧
    resp !! "status" = Some (RVal (VStr "success")) ∧
    resp !! "modules" = Some (RList []) ∧
    resp !! "message"
      = Some (RVal (VStr "Found 0 modules (0 complete, 0 incomplete)")).
Proof.
  intros Hroot. split; [by apply list_all_modules_missing_root |].
  split; [reflexivity |]. eexists. split.
  - rewrite run_list by reflexivity.
    rewrite list_all_modules_missing_root by exact Hroot. reflexivity.
  - repeat split; reflexivity.
Qed.

(** C6. With operation ["check"] and no [module_name] in [params], [run]
    does not raise: it returns the error response whose message is
    ["Missing module_name parameter for check operation"]. *)
Theorem missing_module_name_error (params : gmap string pyval) :
  params !! "operation" = Some (VStr "check") →
  params !! "module_name" = None →
  ∃ resp : gmap string rval,
    run lower fs params = Ok resp ∧
    resp = error_response "Missing module_name parameter for check operation" ∧
    resp !! "status" = Some (RVal (VStr "error")) ∧
    resp !! "message"
      = Some (RVal (VStr "Missing module_name parameter for check operation")).
Proof.
  intros Hop Hname. eexists. split.
  - apply run_check_falsy; [exact Hop | by rewrite Hname].
  - repeat split; reflexivity.
Qed.

(** C7. With operation ["check"] and a module name, [run] returns the
    result of [check_module_structure] under ["result"], a message naming
    the module, and a status that is ["complete"] when [is_complete] is true
    in that result and ["incomplete"] when it is false. *)
Theorem check_status_mirrors_is_complete (params : gmap string pyval)
    (name : string) :
  params !! "operation" = Some (VStr "check") →
  params !! "module_name" = Some (VStr name) →
  name ≠ "" →
  ∃ (result : gmap string pyval) (complete : bool) (resp : gmap string rval),
    check_module_structure lower fs name = Ok result ∧
    result !! "is_complete" = Some (VBool complete) ∧
    run lower fs params = Ok resp ∧
    resp = check_response name result complete ∧
    (resp !! "status" = Some (RVal (VStr "complete")) ↔ complete = true) ∧
    (resp !! "status" = Some (RVal (VStr "incomplete")) ↔ complete = false) ∧
    resp !! "message"
      = Some (RVal (VStr ("Module structure check completed for " ++ name))) ∧
    resp !! "result" = Some (RDict result).
Proof.
  intros Hop Hname Hne.
  destruct (run_check_name params name Hop Hname Hne) as (c & Hc & Hrun).
  exists (structure_of lower fs name), c. eexists.
  split; [apply check_module_structure_ok |].
  split; [exact Hc |]. split; [exact Hrun |]. split; [reflexivity |].
  repeat split; try reflexivity; destruct c; intros; done.
Qed.

(** C8. Every response that [run] returns, whatever [params] and the
    filesystem are, has the entry [module = "TestOrganizer"]. *)
Theorem every_response_tagged (params : gmap string pyval)
    (resp : gmap string rval) :
  run lower fs params = Ok resp →
  resp !! "module" = Some (RVal (VStr "TestOrganizer")).
Proof.
  unfold run. intros H.
  destruct (py_eq_str _ "check").
  - destruct (truthy _); simpl in H.
    + destruct (default VNone _); try discriminate.
      rewrite check_module_structure_ok in H. simpl in H.
      destruct (getitem _ "is_complete"); simpl in H; [|discriminate].
      by injection H as <-.
    + by injection H as <-.
  - destruct (py_eq_str _ "list").
    + destruct (list_all_modules lower fs) as [ms|]; simpl in H; [|discriminate].
      destruct (sum_complete ms 0); simpl in H; [|discriminate].
      by injection H as <-.
    + by injection H as <-.
Qed.

(** C9. With operation ["list"], [module_name] is ignored: two [params]
    that agree on every key but [module_name] get the same outcome of [run]
    on the same filesystem. *)
Theorem list_ignores_module_name (p q : gmap string pyval) :
  default (VStr "list") (p !! "operation") = VStr "list" →
  (∀ key : string, key ≠ "module_name" → p !! key = q !! key) →
  run lower fs p = run lower fs q.
Proof.
  intros Hop Hsame.
  assert (q !! "operation" = p !! "operation") as Hq
    by (symmetry; by apply Hsame).
  rewrite !run_list; [reflexivity | by rewrite Hq | exact Hop].
Qed.

(** C10. With operation ["check"] and [module_name] present but empty,
    [run] returns the same missing-parameter error response as when
    [module_name] is absent. *)
Theorem empty_module_name_is_missing (params : gmap string pyval) :
  params !! "operation" = Some (VStr "check") →
  params !! "module_name" = Some (VStr "") →
  run lower fs params
  = Ok (error_response "Missing module_name parameter for check operation") ∧
  run lower fs params = run lower fs (delete "module_name" params).
Proof.
  intros Hop Hname. split.
  - apply run_check_falsy; [exact Hop | by rewrite Hname].
  - rewrite (run_check_falsy params Hop) by (by rewrite Hname).
    symmetry. apply run_check_falsy.
    + by rewrite lookup_delete_ne.
    + by rewrite lookup_delete_eq.
Qed.

End Run.

(** ** The scenarios of the specification, run on the sample filesystems *)

Example scenario_foo_complete :
  ∃ resp result,
    run ascii_lower sample_fs
      (dict [("operation", VStr "check"); ("module_name", VStr "foo")])
    = Ok resp ∧
    resp !! "status" = Some (RVal (VStr "complete")) ∧
    resp !! "result" = Some (RDict result) ∧
    result !! "is_complete" = Some (VBool true).
Proof. eexists _, _. repeat split; vm_compute; reflexivity. Qed.

Example scenario_bar_incomplete :
  ∃ resp result,
    run ascii_lower sample_fs
      (dict [("operation", VStr "check"); ("module_name", VStr "bar")])
    = Ok resp ∧
    resp !! "status" = Some (RVal (VStr "incomplete")) ∧
    resp !! "result" = Some (RDict result) ∧
    result !! "has_tool_yaml" = Some (VBool false).
Proof. eexists _, _. repeat split; vm_compute; reflexivity. Qed.

Example scenario_list_sample :
  ∃ resp,
    run ascii_lower sample_fs (dict [("operation", VStr "list")]) = Ok resp ∧
    resp !! "message"
      = Some (RVal (VStr "Found 2 modules (1 complete, 1 incomplete)")) ∧
    resp !! "modules"
      = Some (RList [structure_of ascii_lower sample_fs "foo";
                     structure_of ascii_lower sample_fs "bar"]).
Proof. eexists. repeat split; vm_compute; reflexivity. Qed.

(** A module name that is not a string makes [os.path.join] raise. *)
Example scenario_name_not_a_string :
  run ascii_lower sample_fs
    (dict [("operation", VStr "check"); ("module_name", VInt 7)])
  = Raise TypeError.
Proof. reflexivity. Qed.

(** [modules] is a plain file: [os.listdir] raises. *)
Example scenario_root_is_a_file :
  run ascii_lower (tree_fs (Dir [("modules", File)]))
    (dict [("operation", VStr "list")])
  = Raise OSError.
Proof. reflexivity. Qed.

(** ** The theorems at concrete inputs *)



Lemma missing_root_empty_report_witness :
  path_exists bare_fs "modules" = false ∧
  list_all_modules ascii_lower bare_fs = Ok [] ∧
  sum_complete [] 0%Z = Ok 0%Z ∧
  ∃ resp : gmap string rval,
    run ascii_lower bare_fs (dict [("operation", VStr "list")]) = Ok resp ∧
    resp = list_response "Found 0 modules (0 complete, 0 incomplete)" [] ∧
    resp !! "status" = Some (RVal (VStr "success")) ∧
    resp !! "modules" = Some (RList []) ∧
    resp !! "message"
      = Some (RVal (VStr "Found 0 modules (0 complete, 0 incomplete)")).
Proof.
  split; [reflexivity |].
  apply (missing_root_empty_report ascii_lower bare_fs). reflexivity.
Defined.

Lemma hidden_and_files_excluded_witness :
  listdir sample_fs "modules" = Ok ["foo"; ".cache"; "bar"; "baz.py"; "README"] ∧
  ∃ rs : list (gmap string pyval),
    list_all_modules ascii_lower sample_fs = Ok rs ∧
    Forall2 (λ item r, check_module_structure ascii_lower sample_fs item = Ok r)
      ["foo"; "bar"] rs ∧
    ∀ item : string,
      startswith item "." = true
      ∨ path_isdir sample_fs (path_join "modules" item) = false →
      ∀ r, r ∈ rs → r !! "module" ≠ Some (VStr item).
Proof.
  split; [reflexivity |].
  apply (hidden_and_files_excluded ascii_lower sample_fs
           ["foo"; ".cache"; "bar"; "baz.py"; "README"]); reflexivity.
Defined.

Lemma legacy_checked_independently_witness :
  path_isdir sample_fs (path_join "modules" "Baz") = false ∧
  path_exists sample_fs "modules/baz.py" = true ∧
  ∃ r : gmap string pyval,
    check_module_structure ascii_lower sample_fs "Baz" = Ok r ∧
    r !! "has_legacy_module" = Some (VBool true) ∧
    r !! "exists" = Some (VBool false) ∧
    r !! "is_complete" = Some (VBool false).
Proof.
  split; [reflexivity |]. split; [reflexivity |].
  destruct (legacy_checked_independently ascii_lower sample_fs "Baz")
    as (r & Hr & _ & Hscenario).
  exists r. split; [exact Hr |]. apply Hscenario; reflexivity.
Defined.

Lemma missing_module_name_error_witness :
  ∃ resp : gmap string rval,
    run ascii_lower sample_fs (dict [("operation", VStr "check")]) = Ok resp ∧
    resp = error_response "Missing module_name parameter for check operation" ∧
    resp !! "status" = Some (RVal (VStr "error")) ∧
    resp !! "message"
      = Some (RVal (VStr "Missing module_name parameter for check operation")).
Proof.
  apply (missing_module_name_error ascii_lower sample_fs
           (dict [("operation", VStr "check")])); reflexivity.
Defined.

Lemma check_status_mirrors_is_complete_witness :
  ∃ (result : gmap string pyval) (complete : bool) (resp : gmap string rval),
    check_module_structure ascii_lower sample_fs "bar" = Ok result ∧
    result !! "is_complete" = Some (VBool complete) ∧
    run ascii_lower sample_fs
      (dict [("operation", VStr "check"); ("module_name", VStr "bar")])
    = Ok resp ∧
    resp = check_response "bar" result complete ∧
    (resp !! "status" = Some (RVal (VStr "complete")) ↔ complete = true) ∧
    (resp !! "status" = Some (RVal (VStr "incomplete")) ↔ complete = false) ∧
    resp !! "message"
      = Some (RVal (VStr "Module structure check completed for bar")) ∧
    resp !! "result" = Some (RDict result).
Proof.
  apply (check_status_mirrors_is_complete ascii_lower sample_fs
           (dict [("operation", VStr "check"); ("module_name", VStr "bar")])
           "bar"); [reflexivity | reflexivity | discriminate].
Defined.

Lemma every_response_tagged_witness :
  error_response "Unknown operation: 7" !! "module"
  = Some (RVal (VStr "TestOrganizer")).
Proof.
  apply (every_response_tagged ascii_lower sample_fs
           (dict [("operation", VInt 7)])). reflexivity.
Defined.

Lemma list_ignores_module_name_witness :
  run ascii_lower sample_fs (dict [("operation", VStr "list")])
  = run ascii_lower sample_fs
      (dict [("operation", VStr "list"); ("module_name", VStr "foo")]).
Proof.
  apply (list_ignores_module_name ascii_lower sample_fs
           (dict [("operation", VStr "list")])
           (dict [("operation", VStr "list"); ("module_name", VStr "foo")])).
  - reflexivity.
  - intros key Hkey. unfold dict. simpl.
    symmetry. apply lookup_insert_ne. congruence.
Defined.

Lemma empty_module_name_is_missing_witness :
  run ascii_lower sample_fs
    (dict [("operation", VStr "check"); ("module_name", VStr "")])
  = Ok (error_response "Missing module_name parameter for check operation") ∧
  run ascii_lower sample_fs
    (dict [("operation", VStr "check"); ("module_name", VStr "")])
  = run ascii_lower sample_fs
      (delete "module_name"
         (dict [("operation", VStr "check"); ("module_name", VStr "")])).
Proof.
  apply (empty_module_name_is_missing ascii_lower sample_fs
           (dict [("operation", VStr "check"); ("module_name", VStr "")]));
    reflexivity.
Defined.

(** ** Further properties of [check_module_structure] *)

Section CheckModuleMore.

Variable lower : string → string.
Variable fs : filesystem.

Lemma path_join_rooted (a b : string) :
  startswith b "/" = true → path_join a b = b.
Proof. intros H. unfold path_join. by rewrite H. Qed.

Lemma path_join_modules (m : string) :
  startswith m "/" = false → path_join "modules" m = "modules/" ++ m.
Proof. intros H. unfold path_join. by rewrite H. Qed.

Lemma ends_with_sep_app (a b : string) :
  b ≠ "" → ends_with_sep (a ++ b) = ends_with_sep b.
Proof.
  intros Hb. induction a as [|c a IH]; [reflexivity |].
  simpl. destruct (a ++ b) eqn:Hab; [|exact IH].
  destruct a; simpl in Hab; [contradiction | discriminate].
Qed.

Lemma path_join_inside (d file : string) :
  d ≠ "" → ends_with_sep d = false → startswith file "/" = false →
  path_join d file = d ++ "/" ++ file.
Proof.
  intros Hd Hsep Hfile. unfold path_join. rewrite Hfile, Hsep.
  by rewrite bool_decide_false.
Qed.

(** X1. Whatever the name and the filesystem, the dictionary that
    [check_module_structure] returns has exactly six entries: the name it
    was given under [module], and five booleans. *)
Theorem result_has_six_entries (m : string) :
  ∃ e p y l c : bool,
    check_module_structure lower fs m
    = Ok (dict [("module", VStr m);
                ("exists", VBool e);
                ("has_tool_py", VBool p);
                ("has_tool_yaml", VBool y);
                ("has_legacy_module", VBool l);
                ("is_complete", VBool c)]).
Proof.
  rewrite check_module_structure_ok. unfold structure_of.
  by eexists _, _, _, _, _.
Qed.

(** X2. A tool file is reported only in a module directory that was found:
    in every result, [has_tool_py] or [has_tool_yaml] true makes [exists]
    true. *)
Theorem tool_flags_need_directory (m : string) :
  ∃ (r : gmap string pyval) (e p y : bool),
    check_module_structure lower fs m = Ok r ∧
    r !! "exists" = Some (VBool e) ∧
    r !! "has_tool_py" = Some (VBool p) ∧
    r !! "has_tool_yaml" = Some (VBool y) ∧
    (p = true → e = true) ∧ (y = true → e = true).
Proof.
  exists (structure_of lower fs m). eexists _, _, _.
  split; [apply check_module_structure_ok |].
  repeat split; try reflexivity; simpl; intros H;
    apply andb_true_iff in H as [H _]; exact H.
Qed.

(** X3. For a name that is not empty and neither starts nor ends with a
    slash, the paths probed are [modules/<name>], [modules/<name>/tool.py]
    and [modules/<name>/tool.yaml]: [exists] tells that the first is a
    directory, the tool flags that the directory is there and holds the
    file, and [is_complete] that all of it holds. *)
Theorem plain_name_layout (m : string) :
  m ≠ "" →
  startswith m "/" = false →
  ends_with_sep m = false →
  ∃ r : gmap string pyval,
    check_module_structure lower fs m = Ok r ∧
    let found :=
      path_exists fs ("modules/" ++ m) && path_isdir fs ("modules/" ++ m) in
    let tool_py := path_exists fs ("modules/" ++ m ++ "/tool.py") in
    let tool_yaml := path_exists fs ("modules/" ++ m ++ "/tool.yaml") in
    r !! "exists" = Some (VBool found) ∧
    r !! "has_tool_py" = Some (VBool (found && tool_py)) ∧
    r !! "has_tool_yaml" = Some (VBool (found && tool_yaml)) ∧
    r !! "is_complete" = Some (VBool (found && tool_py && tool_yaml)).
Proof.
  intros Hne Hrel Hsep. exists (structure_of lower fs m).
  split; [apply check_module_structure_ok |].
  unfold structure_of, dir_found.
  rewrite (path_join_modules m Hrel).
  assert (ends_with_sep ("modules/" ++ m) = false) as Hdir.
  { change ("modules/" ++ m) with ("modules/" +:+ m).
    by rewrite ends_with_sep_app. }
  rewrite !(path_join_inside ("modules/" ++ m)) by done.
  simpl.
  destruct (path_exists fs _ && path_isdir fs _),
    (path_exists fs _), (path_exists fs _); repeat split; reflexivity.
Qed.

(** X4. A name that starts with a slash is not looked up under [modules]:
    [os.path.join] returns the name itself, so [exists] tells whether that
    absolute path is a directory. *)
Theorem rooted_name_leaves_modules (m : string) :
  startswith m "/" = true →
  ∃ r : gmap string pyval,
    check_module_structure lower fs m = Ok r ∧
    r !! "exists" = Some (VBool (path_exists fs m && path_isdir fs m)).
Proof.
  intros Habs. exists (structure_of lower fs m).
  split; [apply check_module_structure_ok |].
  rewrite structure_of_exists. unfold dir_found.
  by rewrite (path_join_rooted "modules" m Habs).
Qed.

End CheckModuleMore.

(** ** Further properties of [list_all_modules] and [run] *)

Section RunMore.

Variable lower : string → string.
Variable fs : filesystem.


(** What a listing that returns is made of. *)
Lemma list_all_modules_inv (ms : list (gmap string pyval)) :
  list_all_modules lower fs = Ok ms →
  ∃ entries : list string,
    ms = map (structure_of lower fs) (List.filter (listed fs) entries) ∧
    (path_exists fs "modules" = false ∧ entries = []
     ∨ path_exists fs "modules" = true ∧ listdir fs "modules" = Ok entries).
Proof.
  intros H. destruct (path_exists fs "modules") eqn:Hroot.
  - destruct (listdir fs "modules") as [entries|e] eqn:Hls.
    + rewrite (list_all_modules_listing lower fs entries Hroot Hls) in H.
      injection H as <-. exists entries. auto.
    + unfold list_all_modules in H. rewrite Hroot, Hls in H. discriminate.
  - rewrite (list_all_modules_missing_root lower fs Hroot) in H.
    injection H as <-. exists []. auto.
Qed.

Lemma sum_complete_counts (items : list string) (total : Z) :
  sum_complete (map (structure_of lower fs) items) total
  = Ok (total + complete_number (map (structure_of lower fs) items))%Z.
Proof.
  revert total. induction items as [|item rest IH]; intros total.
  - unfold complete_number. simpl. f_equal. lia.
  - destruct (structure_of_flags lower fs item) as (e & p & y & _ & _ & _ & Hc).
    simpl. unfold getitem. rewrite Hc. simpl. rewrite IH. f_equal.
    unfold complete_number. simpl. rewrite Hc.
    destruct (e && p && y); simpl; lia.
Qed.

Lemma complete_number_bounds (ms : list (gmap string pyval)) :
  (0 ≤ complete_number ms ≤ Z.of_nat (length ms))%Z.
Proof.
  unfold complete_number. split; [lia |].
  apply inj_le, filter_length_le.
Qed.

(** X5. Whenever the listing returns, [run] with operation ["list"] returns
    the success response whose message shows the number of modules, the
    number of those whose [is_complete] is true and the difference of the
    two; the three numbers are not negative and the last two add up to the
    first. *)
Theorem listing_counts_add_up (params : gmap string pyval)
    (ms : list (gmap string pyval)) :
  default (VStr "list") (params !! "operation") = VStr "list" →
  list_all_modules lower fs = Ok ms →
  ∃ total complete incomplete : Z,
    run lower fs params
    = Ok (list_response (found_message total complete incomplete) ms) ∧
    total = Z.of_nat (length ms) ∧
    complete = complete_number ms ∧
    (0 ≤ complete)%Z ∧ (0 ≤ incomplete)%Z ∧
    (complete + incomplete = total)%Z.
Proof.
  intros Hop Hls. rewrite run_list by exact Hop. rewrite Hls. simpl.
  destruct (list_all_modules_inv ms Hls) as (entries & -> & _).
  rewrite sum_complete_counts. simpl.
  eexists _, _, _. split; [reflexivity |].
  pose proof (complete_number_bounds
                (map (structure_of lower fs) (List.filter (listed fs) entries))).
  repeat split; lia.
Qed.

(** X6. On a filesystem where what [os.path.isdir] accepts exists, every
    module of a listing has [exists] true: a listed module can lack tool
    files, not its directory. *)
Theorem listed_modules_exist (ms : list (gmap string pyval)) :
  (∀ path, path_isdir fs path = true → path_exists fs path = true) →
  list_all_modules lower fs = Ok ms →
  ∀ r, r ∈ ms → r !! "exists" = Some (VBool true).
Proof.
  intros Hos Hls r Hr.
  destruct (list_all_modules_inv ms Hls) as (entries & -> & _).
  apply list_elem_of_fmap in Hr as (item & -> & Hin).
  apply list_elem_of_In, filter_In in Hin as [_ Hkeep].
  unfold listed in Hkeep. apply andb_true_iff in Hkeep as [Hd _].
  rewrite structure_of_exists. unfold dir_found.
  by rewrite Hd, (Hos _ Hd).
Qed.

(** X7. A listing and a check agree: each dictionary of a listing is the
    one that [run] with operation ["check"] returns under ["result"] for the
    module name it bears. *)
Theorem listing_agrees_with_check (ms : list (gmap string pyval))
    (r : gmap string pyval) (name : string) :
  list_all_modules lower fs = Ok ms →
  r ∈ ms →
  r !! "module" = Some (VStr name) →
  name ≠ "" →
  ∃ resp : gmap string rval,
    run lower fs
      (dict [("operation", VStr "check"); ("module_name", VStr name)])
    = Ok resp ∧
    resp !! "result" = Some (RDict r).
Proof.
  intros Hls Hr Hname Hne.
  destruct (list_all_modules_inv ms Hls) as (entries & -> & _).
  apply list_elem_of_fmap in Hr as (item & -> & _).
  rewrite structure_of_module in Hname. injection Hname as ->.
  destruct (run_check_name lower fs
              (dict [("operation", VStr "check"); ("module_name", VStr name)])
              name) as (c & _ & Hrun); [reflexivity | reflexivity | done |].
  eexists. split; [exact Hrun | reflexivity].
Qed.

Lemma filter_listed_nil (entries : list string) :
  (∀ item, item ∈ entries →
     startswith item "." = true
     ∨ path_isdir fs (path_join "modules" item) = false) →
  List.filter (listed fs) entries = [].
Proof.
  induction entries as [|item rest IH]; intros Hnone; [reflexivity |].
  simpl. assert (listed fs item = false) as ->.
  { unfold listed. destruct (Hnone item) as [-> | ->]; [by left | |];
      [apply andb_false_r | reflexivity]. }
  apply IH. intros item' Hin. apply Hnone. by right.
Qed.

(** X8. A [modules] directory whose entries are all hidden or not
    directories is reported like a missing one: no module, and the message
    ["Found 0 modules (0 complete, 0 incomplete)"]. *)
Theorem nothing_listed_empty_report (params : gmap string pyval)
    (entries : list string) :
  default (VStr "list") (params !! "operation") = VStr "list" →
  path_exists fs "modules" = true →
  listdir fs "modules" = Ok entries →
  (∀ item, item ∈ entries →
     startswith item "." = true
     ∨ path_isdir fs (path_join "modules" item) = false) →
  run lower fs params
  = Ok (list_response "Found 0 modules (0 complete, 0 incomplete)" []).
Proof.
  intros Hop Hroot Hls Hnone. rewrite run_list by exact Hop.
  rewrite (list_all_modules_listing lower fs entries Hroot Hls).
  by rewrite (filter_listed_nil entries Hnone).
Qed.

Lemma falsy_module_name_lemma (params : gmap string pyval) (v : pyval) :
  params !! "operation" = Some (VStr "check") →
  params !! "module_name" = Some v →
  truthy v = false →
  run lower fs params
  = Ok (error_response "Missing module_name parameter for check operation").
Proof.
  intros Hop Hname Hfalse. apply run_check_falsy; [exact Hop |].
  by rewrite Hname.
Qed.

Lemma run_check_not_string (params : gmap string pyval) (v : pyval) :
  params !! "operation" = Some (VStr "check") →
  params !! "module_name" = Some v →
  truthy v = true →
  (∀ s, v ≠ VStr s) →
  run lower fs params = Raise TypeError.
Proof.
  intros Hop Hname Htrue Hstr. unfold run. rewrite Hop, Hname. simpl.
  rewrite Htrue. simpl. destruct v; try reflexivity.
  by destruct (Hstr s).
Qed.

(** X9. With operation ["list"], what [os.listdir] raises on an existing
    [modules] reaches the caller of [run]: no response is returned. *)
Theorem listdir_failure_propagates (params : gmap string pyval) (e : exn) :
  default (VStr "list") (params !! "operation") = VStr "list" →
  path_exists fs "modules" = true →
  listdir fs "modules" = Raise e →
  run lower fs params = Raise e.
Proof.
  intros Hop Hroot Hls. rewrite run_list by exact Hop.
  unfold list_all_modules. by rewrite Hroot, Hls.
Qed.

(** X10. With operation ["check"], a [module_name] that is true as a
    condition but is not a string makes [run] raise [TypeError], whatever
    the filesystem: no response is returned. *)
Theorem name_not_a_string_raises (params : gmap string pyval) (v : pyval) :
  params !! "operation" = Some (VStr "check") →
  params !! "module_name" = Some v →
  truthy v = true →
  (∀ s, v ≠ VStr s) →
  run lower fs params = Raise TypeError.
Proof. apply run_check_not_string. Qed.

(** X11. With operation ["check"], a [module_name] that is false as a
    condition ([None], [False], [0] or the empty string) gets the
    missing-parameter error response, as an absent one does. *)
Theorem falsy_module_name_is_missing (params : gmap string pyval) (v : pyval) :
  params !! "operation" = Some (VStr "check") →
  params !! "module_name" = Some v →
  truthy v = false →
  run lower fs params
  = Ok (error_response "Missing module_name parameter for check operation").
Proof. apply falsy_module_name_lemma. Qed.


(** X13. Every response of [run] is one of three dictionaries: an error
    response (status ["error"], a message and the identity tag, nothing
    else), the response of a check (with the result of
    [check_module_structure] for the given name under ["result"]), or the
    response of a listing (with the list of [list_all_modules] under
    ["modules"]). *)
Theorem response_shapes (params : gmap string pyval)
    (resp : gmap string rval) :
  run lower fs params = Ok resp →
  (∃ message, resp = error_response message)
  ∨ (∃ name result complete,
       params !! "module_name" = Some (VStr name) ∧
       check_module_structure lower fs name = Ok result ∧
       resp = check_response name result complete)
  ∨ (∃ message ms,
       list_all_modules lower fs = Ok ms ∧
       resp = list_response message ms).
Proof.
  unfold run. intros H.
  destruct (py_eq_str _ "check").
  - destruct (params !! "module_name") as [v|]; simpl in H.
    + destruct (truthy v); simpl in H.
      * destruct v as [| | | name]; try discriminate.
        right. left. rewrite check_module_structure_ok in H. simpl in H.
        destruct (structure_of_flags lower fs name)
          as (e & p & y & _ & _ & _ & Hc).
        unfold getitem in H. rewrite Hc in H. simpl in H. injection H as <-.
        exists name, (structure_of lower fs name), (e && p && y).
        split; [reflexivity |].
        split; [apply check_module_structure_ok | reflexivity].
      * left. injection H as <-. by eexists.
    + left. injection H as <-. by eexists.
  - destruct (py_eq_str _ "list").
    + right. right.
      destruct (list_all_modules lower fs) as [ms|]; simpl in H; [|discriminate].
      destruct (sum_complete ms 0); simpl in H; [|discriminate].
      injection H as <-. by eexists _, ms.
    + left. injection H as <-. by eexists.
Qed.

(** X14. [run] reads the keys ["operation"] and ["module_name"] of [params]
    and no other: two [params] that agree on these two keys get the same
    outcome. *)
Theorem run_reads_two_keys (p q : gmap string pyval) :
  p !! "operation" = q !! "operation" →
  p !! "module_name" = q !! "module_name" →
  run lower fs p = run lower fs q.
Proof. intros Hop Hname. unfold run. by rewrite Hop, Hname. Qed.

End RunMore.

(** ** The further properties at concrete inputs *)

Lemma plain_name_layout_witness :
  ∃ r : gmap string pyval,
    check_module_structure ascii_lower sample_fs "bar" = Ok r ∧
    r !! "exists" = Some (VBool true) ∧
    r !! "has_tool_py" = Some (VBool true) ∧
    r !! "has_tool_yaml" = Some (VBool false) ∧
    r !! "is_complete" = Some (VBool false).
Proof.
  apply (plain_name_layout ascii_lower sample_fs "bar");
    [discriminate | reflexivity | reflexivity].
Defined.

Lemma rooted_name_leaves_modules_witness :
  ∃ r : gmap string pyval,
    check_module_structure ascii_lower sample_fs "/modules" = Ok r ∧
    r !! "exists" = Some (VBool true).
Proof.
  apply (rooted_name_leaves_modules ascii_lower sample_fs "/modules").
  reflexivity.
Defined.

Lemma listing_counts_add_up_witness :
  ∃ total complete incomplete : Z,
    run ascii_lower sample_fs (dict [("operation", VStr "list")])
    = Ok (list_response (found_message total complete incomplete)
            [structure_of ascii_lower sample_fs "foo";
             structure_of ascii_lower sample_fs "bar"]) ∧
    total = 2%Z ∧
    complete
    = complete_number [structure_of ascii_lower sample_fs "foo";
                       structure_of ascii_lower sample_fs "bar"] ∧
    (0 ≤ complete)%Z ∧ (0 ≤ incomplete)%Z ∧
    (complete + incomplete = total)%Z.
Proof.
  apply (listing_counts_add_up ascii_lower sample_fs
           (dict [("operation", VStr "list")])); reflexivity.
Defined.

Lemma listed_modules_exist_witness :
  Forall (λ r : gmap string pyval, r !! "exists" = Some (VBool true))
    [structure_of ascii_lower sample_fs "foo";
     structure_of ascii_lower sample_fs "bar"].
Proof.
  apply Forall_forall.
  apply (listed_modules_exist ascii_lower sample_fs).
  - apply tree_isdir_exists.
  - reflexivity.
Defined.

Lemma listing_agrees_with_check_witness :
  ∃ resp : gmap string rval,
    run ascii_lower sample_fs
      (dict [("operation", VStr "check"); ("module_name", VStr "bar")])
    = Ok resp ∧
    resp !! "result" = Some (RDict (structure_of ascii_lower sample_fs "bar")).
Proof.
  apply (listing_agrees_with_check ascii_lower sample_fs
           [structure_of ascii_lower sample_fs "foo";
            structure_of ascii_lower sample_fs "bar"]).
  - reflexivity.
  - apply list_elem_of_In. right. left. reflexivity.
  - reflexivity.
  - discriminate.
Defined.

Lemma nothing_listed_empty_report_witness :
  run ascii_lower barren_fs (dict [("operation", VStr "list")])
  = Ok (list_response "Found 0 modules (0 complete, 0 incomplete)" []).
Proof.
  apply (nothing_listed_empty_report ascii_lower barren_fs
           (dict [("operation", VStr "list")]) [".git"; "notes.txt"]);
    try reflexivity.
  intros item Hin. apply list_elem_of_In in Hin.
  destruct Hin as [<- | [<- | []]]; [left | right]; reflexivity.
Defined.

Lemma listdir_failure_propagates_witness :
  run ascii_lower (tree_fs (Dir [("modules", File)])) ∅ = Raise OSError.
Proof.
  apply (listdir_failure_propagates ascii_lower
           (tree_fs (Dir [("modules", File)])) ∅ OSError); reflexivity.
Defined.

Lemma name_not_a_string_raises_witness :
  run ascii_lower sample_fs
    (dict [("operation", VStr "check"); ("module_name", VInt 7)])
  = Raise TypeError.
Proof.
  apply (name_not_a_string_raises ascii_lower sample_fs
           (dict [("operation", VStr "check"); ("module_name", VInt 7)])
           (VInt 7)); [reflexivity | reflexivity | reflexivity | discriminate].
Defined.

Lemma falsy_module_name_is_missing_witness :
  run ascii_lower sample_fs
    (dict [("operation", VStr "check"); ("module_name", VInt 0)])
  = Ok (error_response "Missing module_name parameter for check operation").
Proof.
  apply (falsy_module_name_is_missing ascii_lower sample_fs
           (dict [("operation", VStr "check"); ("module_name", VInt 0)])
           (VInt 0)); reflexivity.
Defined.


Lemma response_shapes_witness :
  (∃ message, error_response "Unknown operation: None" = error_response message)
  ∨ (∃ name result complete,
       dict [("operation", VNone)] !! "module_name" = Some (VStr name) ∧
       check_module_structure ascii_lower sample_fs name = Ok result ∧
       error_response "Unknown operation: None"
       = check_response name result complete)
  ∨ (∃ message ms,
       list_all_modules ascii_lower sample_fs = Ok ms ∧
       error_response "Unknown operation: None" = list_response message ms).
Proof.
  apply (response_shapes ascii_lower sample_fs (dict [("operation", VNone)])).
  reflexivity.
Defined.

Lemma run_reads_two_keys_witness :
  run ascii_lower sample_fs (dict [("operation", VStr "list")])
  = run ascii_lower sample_fs
      (dict [("operation", VStr "list"); ("verbose", VBool true)]).
Proof.
  apply (run_reads_two_keys ascii_lower sample_fs
           (dict [("operation", VStr "list")])
           (dict [("operation", VStr "list"); ("verbose", VBool true)]));
    reflexivity.
Defined.

Lemma tool_flags_need_directory_witness :
  ∃ (r : gmap string pyval) (e p y : bool),
    check_module_structure ascii_lower sample_fs "bar" = Ok r ∧
    r !! "exists" = Some (VBool e) ∧
    r !! "has_tool_py" = Some (VBool p) ∧
    r !! "has_tool_yaml" = Some (VBool y) ∧
    (p = true → e = true) ∧ (y = true → e = true).
Proof. apply (tool_flags_need_directory ascii_lower sample_fs "bar"). Defined.
